(** * The meminfo extractor of package [proc]

    A shallow embedding of [meminfo.go]: the [MemInfo] struct, the per-line
    method [formatMemInfo] with its chain of [strings.HasPrefix] tests, and
    the driver [FormatMemInfo] that reads a file line by line and feeds
    every line to [formatMemInfo].

    Go strings are byte sequences; they are modelled by [string] (a list of
    8-bit [ascii] values).  A method with a pointer receiver mutates the
    struct behind the pointer: that struct lives in a [Store], threaded
    through a small state-and-panic monad [Go]. *)

From Stdlib Require Import String Ascii List Bool Arith Lia Permutation.
Import ListNotations.
Local Open Scope string_scope.
Local Open Scope list_scope.

(** ** Go's [strings] package, as far as the program uses it *)

(** [strings.HasPrefix(s, prefix)]: does [s] begin with [prefix]? *)
Definition HasPrefix (s prefix : string) : bool := String.prefix prefix s.

(** [strings.Split(s, sep)] for a one-byte separator (the program only ever
    splits on [":"]): all the pieces of [s] between occurrences of [sep].
    A string without the separator gives the one-element slice [[s]]. *)
Fixpoint Split (s : string) (sep : ascii) : list string :=
  match s with
  | EmptyString => [EmptyString]
  | String c s' =>
      if Ascii.eqb c sep then EmptyString :: Split s' sep
      else match Split s' sep with
           | piece :: pieces => String c piece :: pieces
           | [] => [String c EmptyString]
           end
  end.

(** Does the byte [c] occur in [s]? *)
Fixpoint contains (s : string) (c : ascii) : bool :=
  match s with
  | EmptyString => false
  | String c' s' => Ascii.eqb c' c || contains s' c
  end.

(** The part of [s] before the first [c] (all of [s] when there is none). *)
Fixpoint before (s : string) (c : ascii) : string :=
  match s with
  | EmptyString => EmptyString
  | String c' s' => if Ascii.eqb c' c then EmptyString else String c' (before s' c)
  end.

(** The part of [s] after the first [c] (empty when there is none). *)
Fixpoint after (s : string) (c : ascii) : string :=
  match s with
  | EmptyString => EmptyString
  | String c' s' => if Ascii.eqb c' c then s' else after s' c
  end.

(** ** Whitespace normalisation *)

Definition isSpace (c : ascii) : bool :=
  match nat_of_ascii c with
  | 9 | 10 | 11 | 12 | 13 | 32 => true
  | _ => false
  end.

(** The maximal runs of non-blank bytes of [s], in order. *)
Fixpoint Fields (s : string) : list string :=
  match s with
  | EmptyString => []
  | String c s' =>
      if isSpace c then Fields s'
      else match s' with
           | EmptyString => [String c EmptyString]
           | String c' _ =>
               if isSpace c' then String c EmptyString :: Fields s'
               else match Fields s' with
                    | w :: ws => String c w :: ws
                    | [] => [String c EmptyString]
                    end
           end
  end.

(** Modelled from the spec: the helper [str.Trim] of the imported package
    [github.com/ennoo/rivet/utils/string], whose body is not part of the
    sources.  The specification of the tokenizer says that a value has its
    leading and trailing whitespace removed and its internal whitespace runs
    reduced to single separators, the unit suffix kept verbatim
    (["      3965536 kB"] becomes ["3965536 kB"]). *)
Definition Trim_spec (s : string) : string := String.concat " " (Fields s).

(** ** The data model *)

(** Names of the fields of [MemInfo], in declaration order. *)
Module Field.

Inductive t : Set :=
  | MemTotal | MemFree | MemAvailable | Buffers
  | Cached | SwapCached | Active | Inactive
  | ActiveAnon | InactiveAnon | ActiveFile | InactiveFile
  | Unevictable | MLocked | SwapTotal | SwapFree
  | Dirty | WriteBack | AnonPages | Mapped
  | Shmem | Slab | SReclaimable | SUnreclaim
  | KernelStack | PageTables | NFSUnstable | Bounce
  | WriteBackTmp | CommitLimit | CommittedAS | VMAllocTotal
  | VMAllocUsed | VMAllocChunk | HardwareCorrupted | AnonHugePages
  | CmaTotal | CmaFree | HugePagesTotal | HugePagesFree
  | HugePagesRsvd | HugePagesSurp | HugePageSize | DirectMap4k
  | DirectMap2M | DirectMap1G.

Definition eq_dec (f g : t) : {f = g} + {f <> g}.
Proof. decide equality. Defined.

Definition eqb (f g : t) : bool := if eq_dec f g then true else false.

End Field.

(** [type MemInfo struct]: forty-six string fields.  A Go string field has
    no absent state: before any assignment it holds the zero value [""]. *)
Record MemInfo : Set := mkMemInfo {
  MemTotal : string;
  MemFree : string;
  MemAvailable : string;
  Buffers : string;
  Cached : string;
  SwapCached : string;
  Active : string;
  Inactive : string;
  ActiveAnon : string;
  InactiveAnon : string;
  ActiveFile : string;
  InactiveFile : string;
  Unevictable : string;
  MLocked : string;
  SwapTotal : string;
  SwapFree : string;
  Dirty : string;
  WriteBack : string;
  AnonPages : string;
  Mapped : string;
  Shmem : string;
  Slab : string;
  SReclaimable : string;
  SUnreclaim : string;
  KernelStack : string;
  PageTables : string;
  NFSUnstable : string;
  Bounce : string;
  WriteBackTmp : string;
  CommitLimit : string;
  CommittedAS : string;
  VMAllocTotal : string;
  VMAllocUsed : string;
  VMAllocChunk : string;
  HardwareCorrupted : string;
  AnonHugePages : string;
  CmaTotal : string;
  CmaFree : string;
  HugePagesTotal : string;
  HugePagesFree : string;
  HugePagesRsvd : string;
  HugePagesSurp : string;
  HugePageSize : string;
  DirectMap4k : string;
  DirectMap2M : string;
  DirectMap1G : string
}.

(** Field selection [m.f]. *)
Definition get (f : Field.t) (m : MemInfo) : string :=
  match f with
  | Field.MemTotal => MemTotal m
  | Field.MemFree => MemFree m
  | Field.MemAvailable => MemAvailable m
  | Field.Buffers => Buffers m
  | Field.Cached => Cached m
  | Field.SwapCached => SwapCached m
  | Field.Active => Active m
  | Field.Inactive => Inactive m
  | Field.ActiveAnon => ActiveAnon m
  | Field.InactiveAnon => InactiveAnon m
  | Field.ActiveFile => ActiveFile m
  | Field.InactiveFile => InactiveFile m
  | Field.Unevictable => Unevictable m
  | Field.MLocked => MLocked m
  | Field.SwapTotal => SwapTotal m
  | Field.SwapFree => SwapFree m
  | Field.Dirty => Dirty m
  | Field.WriteBack => WriteBack m
  | Field.AnonPages => AnonPages m
  | Field.Mapped => Mapped m
  | Field.Shmem => Shmem m
  | Field.Slab => Slab m
  | Field.SReclaimable => SReclaimable m
  | Field.SUnreclaim => SUnreclaim m
  | Field.KernelStack => KernelStack m
  | Field.PageTables => PageTables m
  | Field.NFSUnstable => NFSUnstable m
  | Field.Bounce => Bounce m
  | Field.WriteBackTmp => WriteBackTmp m
  | Field.CommitLimit => CommitLimit m
  | Field.CommittedAS => CommittedAS m
  | Field.VMAllocTotal => VMAllocTotal m
  | Field.VMAllocUsed => VMAllocUsed m
  | Field.VMAllocChunk => VMAllocChunk m
  | Field.HardwareCorrupted => HardwareCorrupted m
  | Field.AnonHugePages => AnonHugePages m
  | Field.CmaTotal => CmaTotal m
  | Field.CmaFree => CmaFree m
  | Field.HugePagesTotal => HugePagesTotal m
  | Field.HugePagesFree => HugePagesFree m
  | Field.HugePagesRsvd => HugePagesRsvd m
  | Field.HugePagesSurp => HugePagesSurp m
  | Field.HugePageSize => HugePageSize m
  | Field.DirectMap4k => DirectMap4k m
  | Field.DirectMap2M => DirectMap2M m
  | Field.DirectMap1G => DirectMap1G m
  end.

(** The struct whose field [f] holds [h f]. *)
Definition build (h : Field.t -> string) : MemInfo :=
  {| MemTotal := h Field.MemTotal;
     MemFree := h Field.MemFree;
     MemAvailable := h Field.MemAvailable;
     Buffers := h Field.Buffers;
     Cached := h Field.Cached;
     SwapCached := h Field.SwapCached;
     Active := h Field.Active;
     Inactive := h Field.Inactive;
     ActiveAnon := h Field.ActiveAnon;
     InactiveAnon := h Field.InactiveAnon;
     ActiveFile := h Field.ActiveFile;
     InactiveFile := h Field.InactiveFile;
     Unevictable := h Field.Unevictable;
     MLocked := h Field.MLocked;
     SwapTotal := h Field.SwapTotal;
     SwapFree := h Field.SwapFree;
     Dirty := h Field.Dirty;
     WriteBack := h Field.WriteBack;
     AnonPages := h Field.AnonPages;
     Mapped := h Field.Mapped;
     Shmem := h Field.Shmem;
     Slab := h Field.Slab;
     SReclaimable := h Field.SReclaimable;
     SUnreclaim := h Field.SUnreclaim;
     KernelStack := h Field.KernelStack;
     PageTables := h Field.PageTables;
     NFSUnstable := h Field.NFSUnstable;
     Bounce := h Field.Bounce;
     WriteBackTmp := h Field.WriteBackTmp;
     CommitLimit := h Field.CommitLimit;
     CommittedAS := h Field.CommittedAS;
     VMAllocTotal := h Field.VMAllocTotal;
     VMAllocUsed := h Field.VMAllocUsed;
     VMAllocChunk := h Field.VMAllocChunk;
     HardwareCorrupted := h Field.HardwareCorrupted;
     AnonHugePages := h Field.AnonHugePages;
     CmaTotal := h Field.CmaTotal;
     CmaFree := h Field.CmaFree;
     HugePagesTotal := h Field.HugePagesTotal;
     HugePagesFree := h Field.HugePagesFree;
     HugePagesRsvd := h Field.HugePagesRsvd;
     HugePagesSurp := h Field.HugePagesSurp;
     HugePageSize := h Field.HugePageSize;
     DirectMap4k := h Field.DirectMap4k;
     DirectMap2M := h Field.DirectMap2M;
     DirectMap1G := h Field.DirectMap1G |}.

(** The struct [m] after the assignment [m.f = v]. *)
Definition set (f : Field.t) (v : string) (m : MemInfo) : MemInfo :=
  build (fun g => if Field.eqb g f then v else get g m).

(** The zero value of the struct type, [MemInfo{}]. *)
Definition zero : MemInfo := build (fun _ => EmptyString).

(** ** Effects: the store, the log, panics *)

(** Go's [error] values, by their message. *)
Definition error : Set := string.

(** What the logging collaborator [log.Self] has received. *)
Inductive Level : Set := ErrorLevel.

Record LogRecord : Set := mkLogRecord {
  level : Level;
  message : string;
  cause : error
}.

(** The struct behind the receiver pointer [m], and the log.  The receiver
    is taken to point to a struct; a nil receiver is outside the model. *)
Record Store : Set := mkStore {
  recv : MemInfo;
  logged : list LogRecord
}.

(** Run-time panics of the Go runtime that the program can raise. *)
Inductive RuntimeError : Set :=
  | IndexOutOfRange (index len : nat).

(** How a call ends: it returns a value, or it panics and unwinds. *)
Inductive Outcome (A : Type) : Type :=
  | Return (a : A)
  | Panic (e : RuntimeError).
Arguments Return {A} a.
Arguments Panic {A} e.

Definition Go (A : Type) : Type := Store -> Outcome A * Store.

Definition ret {A : Type} (a : A) : Go A := fun st => (Return a, st).

Definition bind {A B : Type} (c : Go A) (k : A -> Go B) : Go B :=
  fun st =>
    match c st with
    | (Return a, st') => k a st'
    | (Panic e, st') => (Panic e, st')
    end.

Notation "x <- c ;; k" := (bind c (fun x => k))
  (at level 61, c at next level, right associativity).
Notation "c ;;; k" := (bind c (fun _ => k))
  (at level 61, right associativity).

(** The index expression [a[i]]: panics when [i] is out of range. *)
Definition index (a : list string) (i : nat) : Go string :=
  fun st =>
    match nth_error a i with
    | Some x => (Return x, st)
    | None => (Panic (IndexOutOfRange i (length a)), st)
    end.
Notation "a .[ i ]" := (index a i) (at level 1, format "a .[ i ]").

(** The assignment [m.f = v] through the receiver pointer. *)
Definition assign (f : Field.t) (v : string) : Go unit :=
  fun st => (Return tt, mkStore (set f v (recv st)) (logged st)).

(** Falling off the end of an [if]/[else if] chain. *)
Definition skip : Go unit := ret tt.

(** [log.Self.Error(msg, log.Error(err))]. *)
Definition logError (msg : string) (err : error) : Go unit :=
  fun st => (Return tt, mkStore (recv st) (logged st ++ [mkLogRecord ErrorLevel msg err])).

(** [for index := range data { body(data[index]) }]: the index ranges over
    the slice, so [data[index]] is always in range. *)
Fixpoint forRange (data : list string) (body : string -> Go unit) : Go unit :=
  match data with
  | [] => ret tt
  | x :: rest => body x ;;; forRange rest body
  end.

(** ** The program *)

(** The key and the field of every branch of [formatMemInfo], in the order
    of the chain. *)
Definition branches : list (string * Field.t) :=
  [ ("MemTotal", Field.MemTotal);
    ("MemFree", Field.MemFree);
    ("MemAvailable", Field.MemAvailable);
    ("Buffers", Field.Buffers);
    ("Cached", Field.Cached);
    ("SwapCached", Field.SwapCached);
    ("Active", Field.Active);
    ("Inactive", Field.Inactive);
    ("Active(anon)", Field.ActiveAnon);
    ("Inactive(anon)", Field.InactiveAnon);
    ("Active(file)", Field.ActiveFile);
    ("Inactive(file)", Field.InactiveFile);
    ("Unevictable", Field.Unevictable);
    ("Mlocked", Field.MLocked);
    ("SwapTotal", Field.SwapTotal);
    ("SwapFree", Field.SwapFree);
    ("Dirty", Field.Dirty);
    ("Writeback", Field.WriteBack);
    ("AnonPages", Field.AnonPages);
    ("Mapped", Field.Mapped);
    ("Shmem", Field.Shmem);
    ("Slab", Field.Slab);
    ("SReclaimable", Field.SReclaimable);
    ("SUnreclaim", Field.SUnreclaim);
    ("KernelStack", Field.KernelStack);
    ("PageTables", Field.PageTables);
    ("NFS_Unstable", Field.NFSUnstable);
    ("Bounce", Field.Bounce);
    ("WritebackTmp", Field.WriteBackTmp);
    ("CommitLimit", Field.CommitLimit);
    ("Committed_AS", Field.CommittedAS);
    ("VmallocTotal", Field.VMAllocTotal);
    ("VmallocUsed", Field.VMAllocUsed);
    ("VmallocChunk", Field.VMAllocChunk);
    ("HardwareCorrupted", Field.HardwareCorrupted);
    ("AnonHugePages", Field.AnonHugePages);
    ("CmaTotal", Field.CmaTotal);
    ("CmaFree", Field.CmaFree);
    ("HugePages_Total", Field.HugePagesTotal);
    ("HugePages_Free", Field.HugePagesFree);
    ("HugePages_Rsvd", Field.HugePagesRsvd);
    ("HugePages_Surp", Field.HugePagesSurp);
    ("Hugepagesize", Field.HugePageSize);
    ("DirectMap4k", Field.DirectMap4k);
    ("DirectMap2M", Field.DirectMap2M);
    ("DirectMap1G", Field.DirectMap1G) ].

(** The field of the first branch whose key is a prefix of the line. *)
Definition resolve (lineStr : string) : option Field.t :=
  option_map snd (find (fun b => HasPrefix lineStr (fst b)) branches).

Section Program.

(** The collaborators from package [rivet] that the program imports:
    [str.Trim], and [file.ReadFileByLine], which returns the lines of a file
    together with an error (nil on success). *)
Variable Trim : string -> string.
Variable ReadFileByLine : string -> list string * option error.

(** [func (m *MemInfo) formatMemInfo(lineStr string)] *)
Definition formatMemInfo (lineStr : string) : Go unit :=
  if HasPrefix lineStr "MemTotal" then
    v <- (Split lineStr ":").[1] ;; assign Field.MemTotal (Trim v)
  else if HasPrefix lineStr "MemFree" then
    v <- (Split lineStr ":").[1] ;; assign Field.MemFree (Trim v)
  else if HasPrefix lineStr "MemAvailable" then
    v <- (Split lineStr ":").[1] ;; assign Field.MemAvailable (Trim v)
  else if HasPrefix lineStr "Buffers" then
    v <- (Split lineStr ":").[1] ;; assign Field.Buffers (Trim v)
  else if HasPrefix lineStr "Cached" then
    v <- (Split lineStr ":").[1] ;; assign Field.Cached (Trim v)
  else if HasPrefix lineStr "SwapCached" then
    v <- (Split lineStr ":").[1] ;; assign Field.SwapCached (Trim v)
  else if HasPrefix lineStr "Active" then
    v <- (Split lineStr ":").[1] ;; assign Field.Active (Trim v)
  else if HasPrefix lineStr "Inactive" then
    v <- (Split lineStr ":").[1] ;; assign Field.Inactive (Trim v)
  else if HasPrefix lineStr "Active(anon)" then
    v <- (Split lineStr ":").[1] ;; assign Field.ActiveAnon (Trim v)
  else if HasPrefix lineStr "Inactive(anon)" then
    v <- (Split lineStr ":").[1] ;; assign Field.InactiveAnon (Trim v)
  else if HasPrefix lineStr "Active(file)" then
    v <- (Split lineStr ":").[1] ;; assign Field.ActiveFile (Trim v)
  else if HasPrefix lineStr "Inactive(file)" then
    v <- (Split lineStr ":").[1] ;; assign Field.InactiveFile (Trim v)
  else if HasPrefix lineStr "Unevictable" then
    v <- (Split lineStr ":").[1] ;; assign Field.Unevictable (Trim v)
  else if HasPrefix lineStr "Mlocked" then
    v <- (Split lineStr ":").[1] ;; assign Field.MLocked (Trim v)
  else if HasPrefix lineStr "SwapTotal" then
    v <- (Split lineStr ":").[1] ;; assign Field.SwapTotal (Trim v)
  else if HasPrefix lineStr "SwapFree" then
    v <- (Split lineStr ":").[1] ;; assign Field.SwapFree (Trim v)
  else if HasPrefix lineStr "Dirty" then
    v <- (Split lineStr ":").[1] ;; assign Field.Dirty (Trim v)
  else if HasPrefix lineStr "Writeback" then
    v <- (Split lineStr ":").[1] ;; assign Field.WriteBack (Trim v)
  else if HasPrefix lineStr "AnonPages" then
    v <- (Split lineStr ":").[1] ;; assign Field.AnonPages (Trim v)
  else if HasPrefix lineStr "Mapped" then
    v <- (Split lineStr ":").[1] ;; assign Field.Mapped (Trim v)
  else if HasPrefix lineStr "Shmem" then
    v <- (Split lineStr ":").[1] ;; assign Field.Shmem (Trim v)
  else if HasPrefix lineStr "Slab" then
    v <- (Split lineStr ":").[1] ;; assign Field.Slab (Trim v)
  else if HasPrefix lineStr "SReclaimable" then
    v <- (Split lineStr ":").[1] ;; assign Field.SReclaimable (Trim v)
  else if HasPrefix lineStr "SUnreclaim" then
    v <- (Split lineStr ":").[1] ;; assign Field.SUnreclaim (Trim v)
  else if HasPrefix lineStr "KernelStack" then
    v <- (Split lineStr ":").[1] ;; assign Field.KernelStack (Trim v)
  else if HasPrefix lineStr "PageTables" then
    v <- (Split lineStr ":").[1] ;; assign Field.PageTables (Trim v)
  else if HasPrefix lineStr "NFS_Unstable" then
    v <- (Split lineStr ":").[1] ;; assign Field.NFSUnstable (Trim v)
  else if HasPrefix lineStr "Bounce" then
    v <- (Split lineStr ":").[1] ;; assign Field.Bounce (Trim v)
  else if HasPrefix lineStr "WritebackTmp" then
    v <- (Split lineStr ":").[1] ;; assign Field.WriteBackTmp (Trim v)
  else if HasPrefix lineStr "CommitLimit" then
    v <- (Split lineStr ":").[1] ;; assign Field.CommitLimit (Trim v)
  else if HasPrefix lineStr "Committed_AS" then
    v <- (Split lineStr ":").[1] ;; assign Field.CommittedAS (Trim v)
  else if HasPrefix lineStr "VmallocTotal" then
    v <- (Split lineStr ":").[1] ;; assign Field.VMAllocTotal (Trim v)
  else if HasPrefix lineStr "VmallocUsed" then
    v <- (Split lineStr ":").[1] ;; assign Field.VMAllocUsed (Trim v)
  else if HasPrefix lineStr "VmallocChunk" then
    v <- (Split lineStr ":").[1] ;; assign Field.VMAllocChunk (Trim v)
  else if HasPrefix lineStr "HardwareCorrupted" then
    v <- (Split lineStr ":").[1] ;; assign Field.HardwareCorrupted (Trim v)
  else if HasPrefix lineStr "AnonHugePages" then
    v <- (Split lineStr ":").[1] ;; assign Field.AnonHugePages (Trim v)
  else if HasPrefix lineStr "CmaTotal" then
    v <- (Split lineStr ":").[1] ;; assign Field.CmaTotal (Trim v)
  else if HasPrefix lineStr "CmaFree" then
    v <- (Split lineStr ":").[1] ;; assign Field.CmaFree (Trim v)
  else if HasPrefix lineStr "HugePages_Total" then
    v <- (Split lineStr ":").[1] ;; assign Field.HugePagesTotal (Trim v)
  else if HasPrefix lineStr "HugePages_Free" then
    v <- (Split lineStr ":").[1] ;; assign Field.HugePagesFree (Trim v)
  else if HasPrefix lineStr "HugePages_Rsvd" then
    v <- (Split lineStr ":").[1] ;; assign Field.HugePagesRsvd (Trim v)
  else if HasPrefix lineStr "HugePages_Surp" then
    v <- (Split lineStr ":").[1] ;; assign Field.HugePagesSurp (Trim v)
  else if HasPrefix lineStr "Hugepagesize" then
    v <- (Split lineStr ":").[1] ;; assign Field.HugePageSize (Trim v)
  else if HasPrefix lineStr "DirectMap4k" then
    v <- (Split lineStr ":").[1] ;; assign Field.DirectMap4k (Trim v)
  else if HasPrefix lineStr "DirectMap2M" then
    v <- (Split lineStr ":").[1] ;; assign Field.DirectMap2M (Trim v)
  else if HasPrefix lineStr "DirectMap1G" then
    v <- (Split lineStr ":").[1] ;; assign Field.DirectMap1G (Trim v)
  else skip.

(** [func (m *MemInfo) FormatMemInfo(filePath string)] *)
Definition FormatMemInfo (filePath : string) : Go unit :=
  let (data, err) := ReadFileByLine filePath in
  match err with
  | Some e => logError "read mem info error" e
  | None => forRange data formatMemInfo
  end.

End Program.

(** ** Vocabulary of the properties *)

(** The store of a fresh extraction: a zero-valued struct behind the
    receiver, nothing logged. *)
Definition fresh : Store := mkStore zero [].

(** A line that [formatMemInfo] can tokenize: it has the delimiter, or it
    is taken by no branch and is never split at all. *)
Definition tokenizable (lineStr : string) : Prop :=
  contains lineStr ":" = true \/ resolve lineStr = None.

(** The value token of a line: what the call hands to [str.Trim]. *)
Definition valueToken (lineStr : string) : string :=
  before (after lineStr ":") ":".

(** A line source on which every path holds the given lines. *)
Definition holding (lines : list string) : string -> list string * option error :=
  fun _ => (lines, None).

(** A line source on which every read fails with the error [e]. *)
Definition unreadable (e : error) : string -> list string * option error :=
  fun _ => ([], Some e).

(** [FormatMemInfo] has no result value, so the only failure that can reach
    its caller is a panic unwinding through the call. *)
Definition surfacesFailure {A : Type} (o : Outcome A) : Prop :=
  exists e, o = Panic e.

(** The fields whose branch comes after a branch with a shorter key that
    is a prefix of theirs. *)
Definition shadowedField (f : Field.t) : bool :=
  match f with
  | Field.ActiveAnon | Field.InactiveAnon | Field.ActiveFile
  | Field.InactiveFile | Field.WriteBackTmp => true
  | _ => false
  end.




(** ** Vocabulary of the properties of whole inputs *)

(** Does the line take the branch of field [f]? *)
Definition resolvesTo (f : Field.t) (lineStr : string) : bool :=
  match resolve lineStr with
  | Some g => Field.eqb g f
  | None => false
  end.

(** The last line of the input that takes the branch of [f]. *)
Fixpoint lastFor (f : Field.t) (lines : list string) : option string :=
  match lines with
  | [] => None
  | l :: rest =>
      match lastFor f rest with
      | Some l' => Some l'
      | None => if resolvesTo f l then Some l else None
      end
  end.

(** The fields that the lines of the input resolve to, in input order. *)
Definition resolved (lines : list string) : list Field.t :=
  flat_map (fun l => match resolve l with Some f => [f] | None => [] end) lines.

(** The key of the branch that assigns to [f]. *)
Definition keyOf (f : Field.t) : string :=
  match find (fun b => Field.eqb (snd b) f) branches with
  | Some b => fst b
  | None => EmptyString
  end.

(** The field of the branch that a shadowed field's key runs into: the
    earlier branch whose key is a prefix of that key. *)
Definition effective (f : Field.t) : Field.t :=
  match f with
  | Field.ActiveAnon | Field.ActiveFile => Field.Active
  | Field.InactiveAnon | Field.InactiveFile => Field.Inactive
  | Field.WriteBackTmp => Field.WriteBack
  | _ => f
  end.

(** Is [c] the first byte of a key of the chain? *)
Definition keyInitial (c : ascii) : bool :=
  existsb (fun b => match fst b with
                    | String a _ => Ascii.eqb a c
                    | EmptyString => true
                    end) branches.

(** * Properties *)

(** ** The struct: selection after assignment *)

Lemma get_build (h : Field.t -> string) (g : Field.t) : get g (build h) = h g.
Proof. destruct g; reflexivity. Qed.

Lemma Field_eqb_refl (f : Field.t) : Field.eqb f f = true.
Proof. unfold Field.eqb. destruct (Field.eq_dec f f); congruence. Qed.

Lemma Field_eqb_neq (f g : Field.t) : g <> f -> Field.eqb g f = false.
Proof. unfold Field.eqb. destruct (Field.eq_dec g f); congruence. Qed.

Lemma get_set_same (f : Field.t) (v : string) (m : MemInfo) :
  get f (set f v m) = v.
Proof. unfold set. rewrite get_build, Field_eqb_refl. reflexivity. Qed.

Lemma get_set_other (f g : Field.t) (v : string) (m : MemInfo) :
  g <> f -> get g (set f v m) = get g m.
Proof. intros Hne. unfold set. rewrite get_build, Field_eqb_neq; trivial. Qed.

Lemma build_get (m : MemInfo) : build (fun g => get g m) = m.
Proof. destruct m; reflexivity. Qed.

Lemma build_ext (h1 h2 : Field.t -> string) :
  (forall g, h1 g = h2 g) -> build h1 = build h2.
Proof. intros E. unfold build. repeat rewrite (E _). reflexivity. Qed.

(** Two structs with the same value in every field are the same struct. *)
Lemma MemInfo_ext (m1 m2 : MemInfo) :
  (forall g, get g m1 = get g m2) -> m1 = m2.
Proof.
  intros E. rewrite <- (build_get m1), <- (build_get m2).
  apply build_ext, E.
Qed.

Lemma get_zero (g : Field.t) : get g zero = EmptyString.
Proof. unfold zero. apply get_build. Qed.

(** Assigning to a field the value it already holds changes nothing. *)
Lemma set_get_id (f : Field.t) (m : MemInfo) : set f (get f m) m = m.
Proof.
  apply MemInfo_ext. intros g.
  destruct (Field.eq_dec g f) as [->|Hne].
  - apply get_set_same.
  - apply get_set_other, Hne.
Qed.

(** ** [strings.Split] and the delimiter *)

Lemma Split_nonempty (s : string) (sep : ascii) : Split s sep <> [].
Proof.
  induction s as [|c s IH]; simpl; [discriminate|].
  destruct (Ascii.eqb c sep); [discriminate|].
  destruct (Split s sep); [congruence | discriminate].
Qed.

(** The first piece is the text before the first separator. *)
Lemma Split_head (s : string) (sep : ascii) :
  hd EmptyString (Split s sep) = before s sep.
Proof.
  induction s as [|c s IH]; simpl; [reflexivity|].
  destruct (Ascii.eqb c sep); [reflexivity|].
  destruct (Split s sep) as [|p ps] eqn:E.
  - now apply Split_nonempty in E.
  - simpl in *. now rewrite IH.
Qed.

(** The rest of the pieces are the pieces of the text after the first
    separator; there are none when the separator does not occur. *)
Lemma Split_tail (s : string) (sep : ascii) :
  tl (Split s sep) = if contains s sep then Split (after s sep) sep else [].
Proof.
  induction s as [|c s IH]; simpl; [reflexivity|].
  destruct (Ascii.eqb c sep); simpl; [reflexivity|].
  destruct (Split s sep) as [|p ps] eqn:E.
  - now apply Split_nonempty in E.
  - simpl in *. exact IH.
Qed.

(** The index expression [strings.Split(s, sep)[1]]: in range exactly when
    [s] contains the separator, and then the piece between the first and the
    second separator. *)
Lemma Split_index_1 (s : string) (sep : ascii) :
  nth_error (Split s sep) 1 =
  if contains s sep then Some (before (after s sep) sep) else None.
Proof.
  pose proof (Split_tail s sep) as Ht.
  destruct (Split s sep) as [|p ps] eqn:E.
  - now apply Split_nonempty in E.
  - simpl in *. subst ps.
    destruct (contains s sep); [|reflexivity].
    rewrite <- Split_head.
    destruct (Split (after s sep) sep) eqn:E'; [|reflexivity].
    now apply Split_nonempty in E'.
Qed.

Lemma Split_length_no_sep (s : string) (sep : ascii) :
  contains s sep = false -> Split s sep = [s].
Proof.
  induction s as [|c s IH]; simpl; [reflexivity|].
  destruct (Ascii.eqb c sep); simpl; [discriminate|].
  intros H. now rewrite (IH H).
Qed.

Lemma before_no_sep (s : string) (sep : ascii) :
  contains s sep = false -> before s sep = s.
Proof.
  induction s as [|c s IH]; simpl; [reflexivity|].
  destruct (Ascii.eqb c sep); simpl; [discriminate|].
  intros H. now rewrite (IH H).
Qed.

(** Cutting at the separator keeps the whole string only when the
    separator does not occur in it. *)
Lemma before_whole_no_sep (s : string) (sep : ascii) :
  before s sep = s -> contains s sep = false.
Proof.
  induction s as [|c s IH]; simpl; [reflexivity|].
  destruct (Ascii.eqb c sep); simpl; [discriminate|].
  intros H. injection H as H. exact (IH H).
Qed.

(** ** Prefixes *)

Lemma HasPrefix_app (s p q : string) :
  HasPrefix s (p ++ q) = true -> HasPrefix s p = true.
Proof.
  unfold HasPrefix. revert s.
  induction p as [|c p IH]; intros s H.
  - destruct s; reflexivity.
  - destruct s as [|d s]; simpl in *; [discriminate|].
    destruct (ascii_dec c d); [apply IH, H | discriminate].
Qed.

(** A branch whose key extends the key of an earlier branch is never
    taken: the earlier branch catches every line it could match. *)
Lemma shadowed (s short long : string) :
  HasPrefix s short = false ->
  (exists q, long = (short ++ q)%string) ->
  HasPrefix s long = false.
Proof.
  intros Hs [q ->].
  destruct (HasPrefix s (short ++ q)) eqn:E; [|reflexivity].
  apply HasPrefix_app in E. congruence.
Qed.

(** ** One line *)

Section Line.

Variable Trim : string -> string.

(** The chain of [formatMemInfo] takes the branch that [resolve] names:
    the first one whose key is a prefix of the line. *)
Lemma formatMemInfo_resolve (lineStr : string) :
  formatMemInfo Trim lineStr =
  match resolve lineStr with
  | Some f => v <- (Split lineStr ":").[1] ;; assign f (Trim v)
  | None => skip
  end.
Proof.
  unfold formatMemInfo, resolve, branches, find, fst.
  repeat match goal with
         | |- context [HasPrefix lineStr ?k] =>
             destruct (HasPrefix lineStr k); [reflexivity|]
         end.
  reflexivity.
Qed.

(** What one call does to the store, branch by branch. *)
Lemma formatMemInfo_run (lineStr : string) (st : Store) :
  formatMemInfo Trim lineStr st =
  match resolve lineStr with
  | None => (Return tt, st)
  | Some f =>
      if contains lineStr ":"
      then (Return tt,
            mkStore (set f (Trim (before (after lineStr ":") ":")) (recv st))
                    (logged st))
      else (Panic (IndexOutOfRange 1 1), st)
  end.
Proof.
  rewrite formatMemInfo_resolve.
  destruct (resolve lineStr) as [f|]; [|reflexivity].
  unfold bind, index, assign. rewrite Split_index_1.
  destruct (contains lineStr ":") eqn:E; [reflexivity|].
  now rewrite (Split_length_no_sep _ _ E).
Qed.

End Line.

(** No line resolves to a shadowed field: the branches of [Active(anon)],
    [Inactive(anon)], [Active(file)], [Inactive(file)] and [WritebackTmp]
    are dead code. *)
Lemma resolve_never_shadowed (lineStr : string) (f : Field.t) :
  resolve lineStr = Some f -> shadowedField f = false.
Proof.
  unfold resolve, branches, find, fst.
  repeat match goal with
         | |- context [HasPrefix lineStr ?k] =>
             destruct (HasPrefix lineStr k) eqn:?;
             [ intros [= <-];
               first [ reflexivity
                     | exfalso;
                       match goal with
                       | H1 : HasPrefix lineStr ?short = false,
                         H2 : HasPrefix lineStr ?long = true |- _ =>
                           rewrite (shadowed lineStr short long H1) in H2;
                           [ discriminate | now eexists ]
                       end ]
             | ]
         end.
  discriminate.
Qed.

(** ** The loop over the lines *)

Section Loop.

Variable Trim : string -> string.

Lemma forRange_app (lines1 lines2 : list string) (body : string -> Go unit)
      (st : Store) :
  forRange (lines1 ++ lines2) body st =
  match forRange lines1 body st with
  | (Return _, st') => forRange lines2 body st'
  | (Panic e, st') => (Panic e, st')
  end.
Proof.
  revert st. induction lines1 as [|x rest IH]; intros st; simpl.
  - reflexivity.
  - unfold bind. destruct (body x st) as [[[]|e] st1].
    + apply IH.
    + reflexivity.
Qed.

(** A line that no branch takes leaves the store alone and returns. *)
Lemma formatMemInfo_unresolved (lineStr : string) (st : Store) :
  resolve lineStr = None -> formatMemInfo Trim lineStr st = (Return tt, st).
Proof. intros H. now rewrite formatMemInfo_run, H. Qed.

(** One call changes no field but the resolved one, and never the log. *)
Lemma formatMemInfo_frame (lineStr : string) (st : Store) (g : Field.t) :
  resolve lineStr <> Some g ->
  get g (recv (snd (formatMemInfo Trim lineStr st))) = get g (recv st).
Proof.
  intros Hg. rewrite formatMemInfo_run.
  destruct (resolve lineStr) as [f|]; [|reflexivity].
  destruct (contains lineStr ":"); [|reflexivity].
  simpl. apply get_set_other. congruence.
Qed.

Lemma formatMemInfo_logged (lineStr : string) (st : Store) :
  logged (snd (formatMemInfo Trim lineStr st)) = logged st.
Proof.
  rewrite formatMemInfo_run.
  destruct (resolve lineStr) as [f|]; [|reflexivity].
  destruct (contains lineStr ":"); reflexivity.
Qed.

(** The loop changes no field that none of its lines resolves to. *)
Lemma forRange_frame (lines : list string) (g : Field.t) (st : Store) :
  (forall l, In l lines -> resolve l <> Some g) ->
  get g (recv (snd (forRange lines (formatMemInfo Trim) st))) = get g (recv st).
Proof.
  revert st. induction lines as [|x rest IH]; intros st Hg; simpl.
  - reflexivity.
  - unfold bind.
    pose proof (formatMemInfo_frame x st g (Hg x (or_introl eq_refl))) as Hx.
    destruct (formatMemInfo Trim x st) as [[[]|e] st1]; simpl in *.
    + rewrite IH; [exact Hx|]. intros l Hl. apply Hg. now right.
    + exact Hx.
Qed.

(** The loop returns when every line is tokenizable. *)
Lemma forRange_returns (lines : list string) (st : Store) :
  Forall tokenizable lines ->
  fst (forRange lines (formatMemInfo Trim) st) = Return tt.
Proof.
  revert st. induction lines as [|x rest IH]; intros st Hall; simpl.
  - reflexivity.
  - inversion Hall as [|? ? Hx Hrest]; subst.
    unfold bind. rewrite formatMemInfo_run.
    destruct Hx as [Hc|Hn].
    + rewrite Hc. destruct (resolve x); apply IH, Hrest.
    + rewrite Hn. apply IH, Hrest.
Qed.

End Loop.

(** [resolve] names the first matching branch of the chain: every branch
    before it has a key that is not a prefix of the line. *)
Lemma resolve_first_match (lineStr : string) (f : Field.t) :
  resolve lineStr = Some f <->
  exists pre k post,
    branches = pre ++ (k, f) :: post /\
    HasPrefix lineStr k = true /\
    forall b, In b pre -> HasPrefix lineStr (fst b) = false.
Proof.
  unfold resolve. generalize branches as bs.
  induction bs as [|[k0 f0] bs IH]; simpl.
  - split; [discriminate|]. intros (pre & k & post & E & _). now destruct pre.
  - destruct (HasPrefix lineStr k0) eqn:E0; simpl.
    + split.
      * intros [= <-]. exists [], k0, bs. repeat split; trivial. intros b [].
      * intros (pre & k & post & E & Hk & Hpre).
        destruct pre as [|b pre]; simpl in E.
        -- now injection E as _ ->.
        -- injection E as <- _. specialize (Hpre _ (or_introl eq_refl)).
           simpl in Hpre. congruence.
    + rewrite IH. split.
      * intros (pre & k & post & -> & Hk & Hpre).
        exists ((k0, f0) :: pre), k, post. repeat split; trivial.
        intros b [<-|Hb]; [exact E0 | now apply Hpre].
      * intros (pre & k & post & E & Hk & Hpre).
        destruct pre as [|b pre]; simpl in E.
        -- injection E as -> _ _. congruence.
        -- injection E as _ ->. exists pre, k, post. repeat split; trivial.
           intros b' Hb'. apply Hpre. now right.
Qed.

(** ** Key resolution *)

(** C1 (the code departs from the claim).  The branch of [Active] comes
    before the branch of [Active(anon)] in the chain, so the line
    [Active(anon): 50 kB] is stored in [Active]: with the lines
    [Active: 100 kB] and [Active(anon): 50 kB], in either order,
    [ActiveAnon] stays empty, and when the [Active(anon)] line comes last
    [Active] holds its value instead of the one of the [Active] line. *)
Theorem Active_anon_line_is_stored_in_Active (Trim : string -> string) :
  let anonLast :=
    FormatMemInfo Trim (holding ["Active: 100 kB"; "Active(anon): 50 kB"])
                  "/proc/meminfo" fresh in
  let anonFirst :=
    FormatMemInfo Trim (holding ["Active(anon): 50 kB"; "Active: 100 kB"])
                  "/proc/meminfo" fresh in
  (fst anonLast = Return tt /\
   Active (recv (snd anonLast)) = Trim " 50 kB" /\
   ActiveAnon (recv (snd anonLast)) = EmptyString) /\
  (fst anonFirst = Return tt /\
   Active (recv (snd anonFirst)) = Trim " 100 kB" /\
   ActiveAnon (recv (snd anonFirst)) = EmptyString).
Proof. vm_compute. repeat split. Qed.

(** ** Lines without a delimiter *)

(** C2, the claim as stated fails: the line [MemTotal] is taken by the
    first branch, [strings.Split] gives a one-element slice, and the index
    expression [[1]] panics.  The panic unwinds through [FormatMemInfo]: of
    the three lines below only the first is processed. *)
Lemma key_without_delimiter_panics :
  let whole :=
    FormatMemInfo Trim_spec (holding ["MemFree: 1 kB"; "MemTotal"; "Slab: 3 kB"])
                  "/proc/meminfo" fresh in
  formatMemInfo Trim_spec "MemTotal" fresh = (Panic (IndexOutOfRange 1 1), fresh) /\
  surfacesFailure (fst whole) /\
  MemFree (recv (snd whole)) = "1 kB" /\
  Slab (recv (snd whole)) = EmptyString.
Proof.
  vm_compute. repeat split. now exists (IndexOutOfRange 1 1).
Qed.

(** C2, amended.  One call of [formatMemInfo] returns exactly when the line
    is tokenizable: it contains the delimiter [:], or no branch takes it (it
    is then skipped, whether or not it has a delimiter).  A line taken by a
    branch and without a delimiter makes the call panic. *)
Theorem formatMemInfo_returns_iff_tokenizable
        (Trim : string -> string) (lineStr : string) (st : Store) :
  (exists st', formatMemInfo Trim lineStr st = (Return tt, st')) <->
  tokenizable lineStr.
Proof.
  rewrite formatMemInfo_run. unfold tokenizable.
  destruct (resolve lineStr) as [f|]; [|split; eauto].
  destruct (contains lineStr ":"); split; eauto.
  - intros [st' H]. discriminate.
  - intros [H|H]; discriminate.
Qed.

(** ** Failure of the line source *)

(** C3, the claim as stated fails: on a line source that cannot be read the
    call returns normally; the error is handed to the logger and nothing
    signals it to the caller. *)
Lemma read_failure_is_only_logged :
  let e := "open /proc/meminfo: no such file or directory" in
  let r := FormatMemInfo Trim_spec (unreadable e) "/proc/meminfo" fresh in
  r = (Return tt, mkStore zero [mkLogRecord ErrorLevel "read mem info error" e]) /\
  ~ surfacesFailure (fst r).
Proof.
  split; [reflexivity|]. intros [e' H]. discriminate.
Qed.

(** C3, amended.  When [ReadFileByLine] reports an error, [FormatMemInfo]
    appends one error-level record ["read mem info error"] carrying that
    error to the log and returns normally; the struct behind the receiver
    is the one the caller passed in. *)
Theorem FormatMemInfo_read_failure
        (Trim : string -> string)
        (ReadFileByLine : string -> list string * option error)
        (filePath : string) (e : error) (st : Store) :
  snd (ReadFileByLine filePath) = Some e ->
  FormatMemInfo Trim ReadFileByLine filePath st =
  (Return tt,
   mkStore (recv st)
           (logged st ++ [mkLogRecord ErrorLevel "read mem info error" e])).
Proof.
  unfold FormatMemInfo. destruct (ReadFileByLine filePath) as [data err].
  simpl. intros ->. reflexivity.
Qed.

Lemma FormatMemInfo_read_failure_witness :
  snd (unreadable "permission denied" "/proc/meminfo") = Some "permission denied" /\
  FormatMemInfo Trim_spec (unreadable "permission denied") "/proc/meminfo" fresh =
  (Return tt,
   mkStore (recv fresh)
           (logged fresh ++
            [mkLogRecord ErrorLevel "read mem info error" "permission denied"])).
Proof.
  split; [reflexivity|].
  apply (FormatMemInfo_read_failure Trim_spec (unreadable "permission denied")
                                    "/proc/meminfo" "permission denied" fresh).
  reflexivity.
Defined.

(** C10.  If reading the source file fails, [FormatMemInfo] assigns to no
    field: the struct behind the receiver is unchanged, field for field. *)
Theorem FormatMemInfo_read_failure_assigns_nothing
        (Trim : string -> string)
        (ReadFileByLine : string -> list string * option error)
        (filePath : string) (e : error) (st : Store) :
  snd (ReadFileByLine filePath) = Some e ->
  recv (snd (FormatMemInfo Trim ReadFileByLine filePath st)) = recv st /\
  forall f : Field.t,
    get f (recv (snd (FormatMemInfo Trim ReadFileByLine filePath st))) =
    get f (recv st).
Proof.
  intros He. unfold FormatMemInfo.
  destruct (ReadFileByLine filePath) as [data err]. simpl in He. subst err.
  split; [reflexivity | intros f; reflexivity].
Qed.

Lemma FormatMemInfo_read_failure_assigns_nothing_witness :
  let st := mkStore (set Field.MemTotal "3965536 kB" zero) [] in
  snd (unreadable "permission denied" "/proc/meminfo") = Some "permission denied" /\
  recv (snd (FormatMemInfo Trim_spec (unreadable "permission denied")
                           "/proc/meminfo" st)) = recv st /\
  forall f : Field.t,
    get f (recv (snd (FormatMemInfo Trim_spec (unreadable "permission denied")
                                    "/proc/meminfo" st))) =
    get f (recv st).
Proof.
  split; [reflexivity|].
  apply (FormatMemInfo_read_failure_assigns_nothing
           Trim_spec (unreadable "permission denied") "/proc/meminfo"
           "permission denied").
  reflexivity.
Defined.

(** ** Fields that are never assigned *)

(** C4, the claim as stated fails: a source that omits [HugePages_Total]
    and a source that carries the line [HugePages_Total:] with an empty
    value give the same store; the field holds [""] in both, and assigning
    the empty value to a field of the zero struct gives the zero struct. *)
Lemma omitted_field_equals_empty_field :
  let omitted :=
    FormatMemInfo Trim_spec (holding ["MemTotal: 1 kB"]) "/proc/meminfo" fresh in
  let emptied :=
    FormatMemInfo Trim_spec (holding ["MemTotal: 1 kB"; "HugePages_Total:"])
                  "/proc/meminfo" fresh in
  resolve "HugePages_Total:" = Some Field.HugePagesTotal /\
  omitted = emptied /\
  HugePagesTotal (recv (snd omitted)) = EmptyString /\
  set Field.HugePagesTotal EmptyString zero = zero.
Proof. vm_compute. repeat split. Qed.

(** C4, amended.  After an extraction into a zero-valued struct, a field to
    which no line of the input resolves holds the empty string, Go's zero
    value for strings; assigning the empty value to that field explicitly
    gives the very same struct, so the two cases are not told apart. *)
Theorem unset_field_is_empty_string
        (Trim : string -> string)
        (ReadFileByLine : string -> list string * option error)
        (filePath : string) (lg : list LogRecord) (f : Field.t) :
  snd (ReadFileByLine filePath) = None ->
  (forall l, In l (fst (ReadFileByLine filePath)) -> resolve l <> Some f) ->
  let m := recv (snd (FormatMemInfo Trim ReadFileByLine filePath (mkStore zero lg))) in
  get f m = EmptyString /\ set f EmptyString m = m.
Proof.
  intros Herr Hf m.
  assert (Hm : get f m = EmptyString).
  { subst m. unfold FormatMemInfo.
    destruct (ReadFileByLine filePath) as [data err]. simpl in *. subst err.
    rewrite forRange_frame by exact Hf. apply get_zero. }
  split; [exact Hm|].
  rewrite <- Hm at 1. apply set_get_id.
Qed.

Lemma unset_field_is_empty_string_witness :
  let src := holding ["MemTotal: 3965536 kB"; "MemFree: 100000 kB"] in
  let m := recv (snd (FormatMemInfo Trim_spec src "/proc/meminfo" (mkStore zero []))) in
  get Field.HugePagesTotal m = EmptyString /\
  set Field.HugePagesTotal EmptyString m = m.
Proof.
  apply (unset_field_is_empty_string
           Trim_spec (holding ["MemTotal: 3965536 kB"; "MemFree: 100000 kB"])
           "/proc/meminfo" [] Field.HugePagesTotal).
  - reflexivity.
  - simpl. intros l [<-|[<-|[]]]; vm_compute; discriminate.
Defined.

(** ** The value token *)

(** C5, the claim as stated fails: the value of [MemTotal: 12:34 kB] is
    cut at the second delimiter.  The remainder of the line after the first
    delimiter is [" 12:34 kB"], the piece handed on is [" 12"], and the
    stored value is not the trimmed remainder. *)
Lemma value_is_cut_at_second_delimiter :
  let lineStr := "MemTotal: 12:34 kB" in
  let stored := MemTotal (recv (snd (formatMemInfo Trim_spec lineStr fresh))) in
  after lineStr ":" = " 12:34 kB" /\
  nth_error (Split lineStr ":") 1 = Some " 12" /\
  stored = "12" /\
  stored <> Trim_spec (after lineStr ":").
Proof. vm_compute. repeat split. discriminate. Qed.

(** C5, amended.  For a line that a branch takes and that contains the
    delimiter, the stored value is the trimmed piece between the first and
    the second delimiter; it is the whole remainder of the line exactly
    when the remainder has no further delimiter. *)
Theorem stored_value_is_second_piece
        (Trim : string -> string) (lineStr : string) (f : Field.t) (st : Store) :
  resolve lineStr = Some f ->
  contains lineStr ":" = true ->
  formatMemInfo Trim lineStr st =
    (Return tt, mkStore (set f (Trim (valueToken lineStr)) (recv st)) (logged st)) /\
  (valueToken lineStr = after lineStr ":" <->
   contains (after lineStr ":") ":" = false).
Proof.
  intros Hf Hc. split.
  - rewrite formatMemInfo_run, Hf, Hc. reflexivity.
  - unfold valueToken. split.
    + apply before_whole_no_sep.
    + apply before_no_sep.
Qed.

Lemma stored_value_is_second_piece_witness :
  let lineStr := "SwapFree: 07:15:00 kB" in
  resolve lineStr = Some Field.SwapFree /\
  contains lineStr ":" = true /\
  formatMemInfo Trim_spec lineStr fresh =
    (Return tt,
     mkStore (set Field.SwapFree (Trim_spec (valueToken lineStr)) (recv fresh))
             (logged fresh)) /\
  (valueToken lineStr = after lineStr ":" <->
   contains (after lineStr ":") ":" = false).
Proof.
  split; [reflexivity|]. split; [reflexivity|].
  apply (stored_value_is_second_piece Trim_spec "SwapFree: 07:15:00 kB"
                                      Field.SwapFree fresh); reflexivity.
Defined.

(** ** Frame of one call *)

(** C9.  One call of [formatMemInfo] changes no field other than the one of
    the first branch whose key is a prefix of the line: every other field
    holds the value it held before the call. *)
Theorem formatMemInfo_changes_one_field
        (Trim : string -> string) (lineStr : string) (st : Store) (g : Field.t) :
  resolve lineStr <> Some g ->
  get g (recv (snd (formatMemInfo Trim lineStr st))) = get g (recv st).
Proof.
  intros Hg. rewrite formatMemInfo_run.
  destruct (resolve lineStr) as [f|] eqn:Hr; [|reflexivity].
  destruct (contains lineStr ":"); [|reflexivity].
  simpl. apply get_set_other. congruence.
Qed.

Lemma formatMemInfo_changes_one_field_witness :
  let st := mkStore (set Field.MemTotal "3965536 kB" zero) [] in
  resolve "MemFree: 100000 kB" <> Some Field.MemTotal /\
  get Field.MemTotal (recv (snd (formatMemInfo Trim_spec "MemFree: 100000 kB" st))) =
  get Field.MemTotal (recv st).
Proof.
  split; [vm_compute; discriminate|].
  apply (formatMemInfo_changes_one_field Trim_spec "MemFree: 100000 kB").
  vm_compute; discriminate.
Defined.

(** ** The key token *)

(** A key without the delimiter is a prefix of the line exactly when it is
    a prefix of the line's key token, the text before the first delimiter. *)
Lemma HasPrefix_before (s k : string) (c : ascii) :
  contains k c = false -> HasPrefix s k = HasPrefix (before s c) k.
Proof.
  unfold HasPrefix. revert s.
  induction k as [|a k IH]; intros s Hk.
  - destruct s as [|b s]; simpl; [reflexivity|].
    destruct (Ascii.eqb b c); reflexivity.
  - simpl in Hk. apply orb_false_elim in Hk as [Hac Hk].
    destruct s as [|b s]; simpl; [reflexivity|].
    destruct (ascii_dec a b) as [<-|Hab].
    + rewrite Hac. simpl.
      destruct (ascii_dec a a); [apply IH, Hk | congruence].
    + destruct (Ascii.eqb b c); simpl; [reflexivity|].
      destruct (ascii_dec a b); [congruence | reflexivity].
Qed.

Lemma find_key_token (lineStr : string) (bs : list (string * Field.t)) :
  Forall (fun b => contains (fst b) ":" = false) bs ->
  find (fun b => HasPrefix lineStr (fst b)) bs =
  find (fun b => HasPrefix (before lineStr ":") (fst b)) bs.
Proof.
  induction 1 as [|b bs Hb _ IH]; simpl; [reflexivity|].
  now rewrite <- (HasPrefix_before _ _ _ Hb), IH.
Qed.

(** No key of the chain contains the delimiter, so the branch is decided
    by the key token alone: a line resolves as its key token does. *)
Lemma resolve_key_token (lineStr : string) :
  resolve lineStr = resolve (before lineStr ":").
Proof.
  unfold resolve. f_equal. apply find_key_token.
  unfold branches. repeat constructor.
Qed.

(** ** Lines that no branch takes *)

(** C6.  A line whose key matches no entry (no key of the chain is a prefix
    of it; by [resolve_key_token] this is a matter of its key token only)
    can be removed from the input: the extraction over the file with the
    line and the extraction over the file without it end in the same
    outcome and the same store, and the call on the line itself returns
    without touching the store. *)
Theorem unknown_line_can_be_removed
        (Trim : string -> string)
        (ReadFileByLine : string -> list string * option error)
        (withLine withoutLine : string)
        (pre post : list string) (lineStr : string) (st : Store) :
  ReadFileByLine withLine = (pre ++ lineStr :: post, None) ->
  ReadFileByLine withoutLine = (pre ++ post, None) ->
  resolve lineStr = None ->
  FormatMemInfo Trim ReadFileByLine withLine st =
  FormatMemInfo Trim ReadFileByLine withoutLine st /\
  forall st1, formatMemInfo Trim lineStr st1 = (Return tt, st1).
Proof.
  intros H1 H2 Hr. split.
  - unfold FormatMemInfo. rewrite H1, H2, !forRange_app.
    destruct (forRange pre (formatMemInfo Trim) st) as [[[]|e] st1]; trivial.
    simpl. unfold bind. now rewrite formatMemInfo_unresolved.
  - intros st1. now apply formatMemInfo_unresolved.
Qed.

Lemma unknown_line_can_be_removed_witness :
  let src := fun path : string =>
    if String.eqb path "/tmp/with"
    then (["MemTotal: 3965536 kB"; "FutureKernelField: 1 kB"; "Slab: 30000 kB"], None)
    else (["MemTotal: 3965536 kB"; "Slab: 30000 kB"], @None error) in
  resolve "FutureKernelField: 1 kB" = None /\
  FormatMemInfo Trim_spec src "/tmp/with" fresh =
  FormatMemInfo Trim_spec src "/tmp/without" fresh /\
  forall st1, formatMemInfo Trim_spec "FutureKernelField: 1 kB" st1 = (Return tt, st1).
Proof.
  split; [reflexivity|].
  apply (unknown_line_can_be_removed
           Trim_spec _ "/tmp/with" "/tmp/without"
           ["MemTotal: 3965536 kB"] ["Slab: 30000 kB"] "FutureKernelField: 1 kB");
    reflexivity.
Defined.

(** ** Duplicate keys *)

(** C7, the claim as stated fails: both [MemTotal] lines below resolve to
    [MemTotal], but the line [Slab] between them has a key and no
    delimiter.  The extraction panics on it, the later line is never
    processed, and [MemTotal] holds the value of the earlier line. *)
Lemma duplicate_after_bad_line_is_lost :
  let lines := ["MemTotal: 1 kB"; "Slab"; "MemTotal: 2 kB"] in
  let r := FormatMemInfo Trim_spec (holding lines) "/proc/meminfo" fresh in
  resolve "MemTotal: 1 kB" = Some Field.MemTotal /\
  resolve "MemTotal: 2 kB" = Some Field.MemTotal /\
  fst r = Panic (IndexOutOfRange 1 1) /\
  MemTotal (recv (snd r)) = "1 kB" /\
  MemTotal (recv (snd r)) <> Trim_spec (valueToken "MemTotal: 2 kB").
Proof. vm_compute. repeat split. discriminate. Qed.

(** C7, amended.  For every input whose lines are all tokenizable (each
    has the delimiter or is taken by no branch): when two lines resolve to
    the same field, and no line after the later one does, the extraction
    returns and the field holds the value of the later line. *)
Theorem last_write_wins
        (Trim : string -> string)
        (ReadFileByLine : string -> list string * option error)
        (filePath : string)
        (l0 l1 l2 : list string) (earlier later : string)
        (f : Field.t) (st : Store) :
  ReadFileByLine filePath = (l0 ++ earlier :: l1 ++ later :: l2, None) ->
  Forall tokenizable (l0 ++ earlier :: l1 ++ later :: l2) ->
  resolve earlier = Some f ->
  resolve later = Some f ->
  (forall l, In l l2 -> resolve l <> Some f) ->
  exists st',
    FormatMemInfo Trim ReadFileByLine filePath st = (Return tt, st') /\
    get f (recv st') = Trim (valueToken later).
Proof.
  intros Hread Hall _ Hlater Hrest.
  unfold FormatMemInfo. rewrite Hread.
  replace (l0 ++ earlier :: l1 ++ later :: l2)
    with ((l0 ++ earlier :: l1) ++ later :: l2) in *
    by (rewrite <- app_assoc; reflexivity).
  apply Forall_app in Hall as [Hpre Htail].
  inversion Htail as [|? ? Hl Hl2]; subst.
  rewrite forRange_app.
  pose proof (forRange_returns Trim _ st Hpre) as Hret.
  destruct (forRange (l0 ++ earlier :: l1) (formatMemInfo Trim) st) as [o st1].
  simpl in Hret. subst o. simpl. unfold bind.
  rewrite formatMemInfo_run, Hlater.
  destruct Hl as [Hc|Hn]; [|congruence]. rewrite Hc.
  set (st2 := mkStore _ _).
  pose proof (forRange_returns Trim _ st2 Hl2) as Hret2.
  pose proof (forRange_frame Trim l2 f st2 Hrest) as Hframe.
  destruct (forRange l2 (formatMemInfo Trim) st2) as [o st3].
  simpl in *. subst o. exists st3. split; [reflexivity|].
  rewrite Hframe. subst st2. simpl. apply get_set_same.
Qed.

Lemma last_write_wins_witness :
  exists st',
    FormatMemInfo Trim_spec
      (holding ["MemFree: 1 kB"; "MemTotal: 2 kB"; "Slab: 3 kB"; "MemTotal: 4 kB"; "Dirty: 5 kB"])
      "/proc/meminfo" fresh = (Return tt, st') /\
    get Field.MemTotal (recv st') = Trim_spec (valueToken "MemTotal: 4 kB").
Proof.
  apply (last_write_wins Trim_spec _ "/proc/meminfo"
           ["MemFree: 1 kB"] ["Slab: 3 kB"] ["Dirty: 5 kB"]
           "MemTotal: 2 kB" "MemTotal: 4 kB" Field.MemTotal fresh).
  - reflexivity.
  - repeat constructor.
  - reflexivity.
  - reflexivity.
  - simpl. intros l [<-|[]]. vm_compute. discriminate.
Defined.

(** ** Whitespace normalisation of the value *)

Lemma contains_app (a b : string) (c : ascii) :
  contains (a ++ b) c = contains a c || contains b c.
Proof.
  induction a as [|d a IH]; simpl; [reflexivity|].
  now rewrite IH, orb_assoc.
Qed.

Lemma after_app (key rest : string) (c : ascii) :
  contains key c = false -> after (key ++ String c rest) c = rest.
Proof.
  induction key as [|d key IH]; simpl.
  - now rewrite Ascii.eqb_refl.
  - destruct (Ascii.eqb d c); simpl; [discriminate | exact IH].
Qed.








(** * Further properties of the extraction *)

(** ** Which branch a line takes *)

(** X1.  A line that begins with the key of a branch, whatever follows the
    key, is taken by a branch: the branch of that key, or for the five
    shadowed keys the earlier branch whose shorter key they extend.
    Matching is by prefix, so [MemTotalExtra: 7] is stored in [MemTotal]
    and [Active(file): 7] in [Active]. *)
Theorem line_with_known_key_is_taken
        (k : string) (f : Field.t) (rest : string) :
  In (k, f) branches -> resolve (k ++ rest) = Some (effective f).
Proof.
  unfold branches. simpl In. intros H.
  repeat (destruct H as [H|H];
          [injection H as <- <-; destruct rest; reflexivity|]).
  destruct H.
Qed.

Lemma line_with_known_key_is_taken_witness :
  In ("Active(file)", Field.ActiveFile) branches /\
  resolve ("Active(file)" ++ ":   1234 kB") = Some (effective Field.ActiveFile).
Proof.
  assert (Hin : In ("Active(file)", Field.ActiveFile) branches)
    by (vm_compute; tauto).
  split; [exact Hin|].
  apply (line_with_known_key_is_taken "Active(file)" Field.ActiveFile ":   1234 kB").
  exact Hin.
Defined.

(** X2.  Which fields a line can populate.  For each of the forty-one
    fields that are not shadowed, the line made of the field's own key,
    the delimiter and any value without a further delimiter populates it:
    the call returns and the field holds the trimmed value.  The five
    shadowed fields are changed by no line at all. *)
Theorem populated_unless_shadowed (Trim : string -> string) (f : Field.t) :
  (shadowedField f = false ->
   forall (v : string) (st : Store),
     contains v ":" = false ->
     formatMemInfo Trim (keyOf f ++ ":" ++ v) st =
     (Return tt, mkStore (set f (Trim v) (recv st)) (logged st))) /\
  (shadowedField f = true ->
   forall (lineStr : string) (st : Store),
     get f (recv (snd (formatMemInfo Trim lineStr st))) = get f (recv st)).
Proof.
  split.
  - intros Hf v st Hv.
    assert (Hr : resolve (keyOf f ++ ":" ++ v) = Some f)
      by (destruct f; first [discriminate Hf | reflexivity]).
    assert (Hk : contains (keyOf f) ":" = false)
      by (destruct f; reflexivity).
    rewrite formatMemInfo_run, Hr.
    change ((keyOf f ++ ":" ++ v)%string) with ((keyOf f ++ String ":" v)%string).
    rewrite contains_app. simpl contains at 2. rewrite orb_true_r.
    now rewrite (after_app _ _ _ Hk), (before_no_sep _ _ Hv).
  - intros Hf lineStr st. apply formatMemInfo_frame.
    intros Hr. apply resolve_never_shadowed in Hr. congruence.
Qed.

Lemma populated_unless_shadowed_witness :
  let st := mkStore (set Field.ActiveFile "old" zero) [] in
  (shadowedField Field.Slab = false /\
   contains " 30000 kB" ":" = false /\
   formatMemInfo Trim_spec (keyOf Field.Slab ++ ":" ++ " 30000 kB") st =
   (Return tt, mkStore (set Field.Slab (Trim_spec " 30000 kB") (recv st)) (logged st))) /\
  (shadowedField Field.ActiveFile = true /\
   get Field.ActiveFile (recv (snd (formatMemInfo Trim_spec "Active(file): 7 kB" st))) =
   get Field.ActiveFile (recv st)).
Proof.
  split.
  - split; [reflexivity|]. split; [reflexivity|].
    apply (proj1 (populated_unless_shadowed Trim_spec Field.Slab)); reflexivity.
  - split; [reflexivity|].
    apply (proj2 (populated_unless_shadowed Trim_spec Field.ActiveFile)).
    reflexivity.
Defined.

(** X3.  The branch is decided by the text before the first delimiter
    alone: two lines with the same key token take the same branch (or are
    both skipped), whatever their values. *)
Theorem same_key_token_same_branch (a b : string) :
  before a ":" = before b ":" -> resolve a = resolve b.
Proof.
  intros H. rewrite (resolve_key_token a), (resolve_key_token b), H.
  reflexivity.
Qed.

Lemma same_key_token_same_branch_witness :
  before "SwapFree: 1 kB" ":" = before "SwapFree:2:3" ":" /\
  resolve "SwapFree: 1 kB" = resolve "SwapFree:2:3".
Proof.
  split; [reflexivity|].
  apply (same_key_token_same_branch "SwapFree: 1 kB" "SwapFree:2:3").
  reflexivity.
Defined.

Lemma find_no_initial (c : ascii) (rest : string) (bs : list (string * Field.t)) :
  existsb (fun b => match fst b with
                    | String a _ => Ascii.eqb a c
                    | EmptyString => true
                    end) bs = false ->
  find (fun b => HasPrefix (String c rest) (fst b)) bs = None.
Proof.
  induction bs as [|[k f] bs IH]; simpl; [reflexivity|].
  intros H. apply orb_false_elim in H as [Hk Hbs].
  destruct k as [|a k]; [discriminate|].
  unfold HasPrefix at 1. simpl.
  destruct (ascii_dec a c) as [->|Hne].
  - now rewrite Ascii.eqb_refl in Hk.
  - apply IH, Hbs.
Qed.

(** X4.  Keys are matched at the first byte of the line and byte for
    byte: a line whose first byte begins no key of the chain (an indented
    line, a lower-case key, a comment) is skipped, with or without a
    delimiter, and so is the empty line. *)
Theorem line_with_foreign_initial_is_skipped
        (Trim : string -> string) (c : ascii) (rest : string) (st : Store) :
  keyInitial c = false ->
  formatMemInfo Trim (String c rest) st = (Return tt, st) /\
  formatMemInfo Trim EmptyString st = (Return tt, st).
Proof.
  intros H. split.
  - apply formatMemInfo_unresolved. unfold resolve.
    now rewrite (find_no_initial c rest branches H).
  - now apply formatMemInfo_unresolved.
Qed.

Lemma line_with_foreign_initial_is_skipped_witness :
  keyInitial " " = false /\
  formatMemInfo Trim_spec " MemTotal" fresh = (Return tt, fresh) /\
  formatMemInfo Trim_spec EmptyString fresh = (Return tt, fresh).
Proof.
  split; [reflexivity|].
  apply (line_with_foreign_initial_is_skipped Trim_spec " " "MemTotal" fresh).
  reflexivity.
Defined.

(** ** Whole inputs: what the receiver holds afterwards *)

Section Inputs.

Variable Trim : string -> string.

Lemma tokenizable_dec (lineStr : string) :
  {tokenizable lineStr} + {~ tokenizable lineStr}.
Proof.
  unfold tokenizable.
  destruct (contains lineStr ":"); [left; now left|].
  destruct (resolve lineStr); [right | left; now right].
  intros [H|H]; discriminate.
Defined.

Lemma forRange_logged (lines : list string) (st : Store) :
  logged (snd (forRange lines (formatMemInfo Trim) st)) = logged st.
Proof.
  revert st. induction lines as [|x rest IH]; intros st; simpl; [reflexivity|].
  unfold bind. pose proof (formatMemInfo_logged Trim x st) as Hx.
  destruct (formatMemInfo Trim x st) as [[[]|e] st1]; simpl in *.
  - now rewrite IH.
  - exact Hx.
Qed.

(** A call on a line that is not tokenizable panics and leaves the store. *)
Lemma formatMemInfo_not_tokenizable (lineStr : string) (st : Store) :
  ~ tokenizable lineStr ->
  formatMemInfo Trim lineStr st = (Panic (IndexOutOfRange 1 1), st).
Proof.
  intros H. rewrite formatMemInfo_run. unfold tokenizable in H.
  destruct (resolve lineStr) as [f|]; [|exfalso; apply H; now right].
  destruct (contains lineStr ":"); [exfalso; apply H; now left | reflexivity].
Qed.

(** The loop returns only when every line is tokenizable. *)
Lemma forRange_returns_inv (lines : list string) (st : Store) :
  fst (forRange lines (formatMemInfo Trim) st) = Return tt ->
  Forall tokenizable lines.
Proof.
  revert st. induction lines as [|x rest IH]; intros st; simpl; [constructor|].
  unfold bind. destruct (tokenizable_dec x) as [Hx|Hx].
  - destruct (formatMemInfo Trim x st) as [[[]|e] st1]; simpl.
    + intros H. constructor; [exact Hx | exact (IH _ H)].
    + discriminate.
  - rewrite (formatMemInfo_not_tokenizable x st Hx). discriminate.
Qed.

(** The loop stops at the first line that is not tokenizable, with the
    store that the lines before it have built. *)
Lemma forRange_stops (pre post : list string) (bad : string) (st : Store) :
  Forall tokenizable pre -> ~ tokenizable bad ->
  forRange (pre ++ bad :: post) (formatMemInfo Trim) st =
  (Panic (IndexOutOfRange 1 1), snd (forRange pre (formatMemInfo Trim) st)).
Proof.
  intros Hpre Hbad. rewrite forRange_app.
  pose proof (forRange_returns Trim pre st Hpre) as Hret.
  destruct (forRange pre (formatMemInfo Trim) st) as [o st1].
  simpl in *. subst o. unfold bind.
  now rewrite (formatMemInfo_not_tokenizable bad st1 Hbad).
Qed.

(** Every input is either all tokenizable or has a first line that is not. *)
Lemma first_bad_line (lines : list string) :
  Forall tokenizable lines \/
  exists pre bad post,
    lines = pre ++ bad :: post /\ Forall tokenizable pre /\ ~ tokenizable bad.
Proof.
  induction lines as [|x rest IH]; [left; constructor|].
  destruct (tokenizable_dec x) as [Hx|Hx].
  - destruct IH as [Hall|(pre & bad & post & -> & Hpre & Hbad)].
    + left. now constructor.
    + right. exists (x :: pre), bad, post. repeat split; trivial.
      now constructor.
  - right. exists [], x, rest. repeat split; trivial.
Qed.

(** After a loop over tokenizable lines every field holds the value of
    the last line that resolves to it, or what it held before. *)
Lemma forRange_final (lines : list string) (st : Store) (f : Field.t) :
  Forall tokenizable lines ->
  get f (recv (snd (forRange lines (formatMemInfo Trim) st))) =
  match lastFor f lines with
  | Some l => Trim (valueToken l)
  | None => get f (recv st)
  end.
Proof.
  intros Hall. revert st.
  induction Hall as [|x rest Hx _ IH]; intros st; simpl; [reflexivity|].
  unfold bind, resolvesTo. rewrite formatMemInfo_run.
  destruct (resolve x) as [g|] eqn:Hr.
  - destruct Hx as [Hc|Hn]; [|congruence]. rewrite Hc, IH. simpl.
    destruct (lastFor f rest); [reflexivity|].
    unfold Field.eqb. destruct (Field.eq_dec g f) as [->|Hne].
    + apply get_set_same.
    + apply get_set_other. congruence.
  - rewrite IH. now destruct (lastFor f rest).
Qed.

Lemma Store_ext (s1 s2 : Store) :
  (forall f, get f (recv s1) = get f (recv s2)) ->
  logged s1 = logged s2 -> s1 = s2.
Proof.
  destruct s1 as [m1 l1], s2 as [m2 l2]. simpl.
  intros Hm ->. f_equal. apply MemInfo_ext, Hm.
Qed.

(** Assignments to different fields commute. *)
Lemma set_comm (f g : Field.t) (v w : string) (m : MemInfo) :
  f <> g -> set f v (set g w m) = set g w (set f v m).
Proof.
  intros Hne. apply MemInfo_ext. intros h.
  destruct (Field.eq_dec h f) as [->|Hf].
  - rewrite get_set_same, (get_set_other g f) by exact Hne.
    now rewrite get_set_same.
  - rewrite (get_set_other f h) by exact Hf.
    destruct (Field.eq_dec h g) as [->|Hg].
    + now rewrite !get_set_same.
    + now rewrite !(get_set_other g h), (get_set_other f h).
Qed.

(** Two tokenizable lines that resolve to different fields can be
    processed in either order. *)
Lemma formatMemInfo_swap (x y : string) (st : Store) :
  tokenizable x -> tokenizable y ->
  (forall f, resolve x = Some f -> resolve y <> Some f) ->
  (formatMemInfo Trim x ;;; formatMemInfo Trim y) st =
  (formatMemInfo Trim y ;;; formatMemInfo Trim x) st.
Proof.
  intros Hx Hy Hne. unfold bind.
  rewrite (formatMemInfo_run Trim x st), (formatMemInfo_run Trim y st).
  destruct (resolve x) as [f|] eqn:Hrx.
  - destruct Hx as [Hx|Hx]; [rewrite Hx | congruence].
    rewrite formatMemInfo_run.
    destruct (resolve y) as [g|] eqn:Hry.
    + destruct Hy as [Hy|Hy]; [rewrite Hy | congruence].
      rewrite formatMemInfo_run, Hrx, Hx. simpl.
      rewrite set_comm; [reflexivity|].
      intros E. subst. exact (Hne _ eq_refl eq_refl).
    + now rewrite formatMemInfo_run, Hrx, Hx.
  - rewrite formatMemInfo_run.
    destruct (resolve y) as [g|] eqn:Hry.
    + destruct Hy as [Hy|Hy]; [rewrite Hy | congruence].
      now rewrite formatMemInfo_run, Hrx.
    + now rewrite formatMemInfo_run, Hrx.
Qed.

End Inputs.

Section Extraction.

Variable Trim : string -> string.
Variable ReadFileByLine : string -> list string * option error.

Lemma bind_assoc_run (a b c : Go unit) (st : Store) :
  (a ;;; (b ;;; c)) st = ((a ;;; b) ;;; c) st.
Proof.
  unfold bind. destruct (a st) as [[[]|e] st1]; [|reflexivity].
  destruct (b st1) as [[[]|e] st2]; reflexivity.
Qed.

Lemma resolved_cons (x : string) (lines : list string) :
  resolved (x :: lines) =
  match resolve x with Some f => [f] | None => [] end ++ resolved lines.
Proof. reflexivity. Qed.

(** The loop gives the same outcome and store on two arrangements of
    tokenizable lines that resolve to pairwise different fields. *)
Lemma forRange_Permutation (lines1 lines2 : list string) :
  Permutation lines1 lines2 ->
  Forall tokenizable lines1 ->
  NoDup (resolved lines1) ->
  forall st,
    forRange lines1 (formatMemInfo Trim) st =
    forRange lines2 (formatMemInfo Trim) st.
Proof.
  induction 1 as [|x l l' Hp IH|x y l|l l' l'' Hp1 IH1 Hp2 IH2];
    intros Hall Hnd st.
  - reflexivity.
  - simpl. unfold bind.
    destruct (formatMemInfo Trim x st) as [[[]|e] st1]; [|reflexivity].
    apply IH.
    + now inversion Hall.
    + rewrite resolved_cons in Hnd. now apply NoDup_app_remove_l in Hnd.
  - simpl. rewrite !bind_assoc_run. unfold bind at 1 3.
    rewrite formatMemInfo_swap; trivial.
    + now inversion Hall.
    + inversion Hall as [|? ? _ Hrest]. now inversion Hrest.
    + intros f Hx Hy. rewrite !resolved_cons, Hx, Hy in Hnd. simpl in Hnd.
      inversion Hnd as [|? ? Hnotin _]. apply Hnotin. now left.
  - rewrite IH1 by assumption. apply IH2.
    + exact (Permutation_Forall Hp1 Hall).
    + refine (Permutation_NoDup _ Hnd). now apply Permutation_flat_map.
Qed.

End Extraction.

(** X5.  The branches of [Active(anon)], [Inactive(anon)], [Active(file)],
    [Inactive(file)] and [WritebackTmp] are dead: whatever the file holds
    and however the call ends, [FormatMemInfo] leaves the fields
    [ActiveAnon], [InactiveAnon], [ActiveFile], [InactiveFile] and
    [WriteBackTmp] of the receiver as they were. *)
Theorem shadowed_fields_are_never_assigned
        (Trim : string -> string)
        (ReadFileByLine : string -> list string * option error)
        (filePath : string) (st : Store) (f : Field.t) :
  shadowedField f = true ->
  get f (recv (snd (FormatMemInfo Trim ReadFileByLine filePath st))) =
  get f (recv st).
Proof.
  intros Hf. unfold FormatMemInfo.
  destruct (ReadFileByLine filePath) as [data [e|]]; [reflexivity|].
  apply forRange_frame. intros l _ Hl.
  apply resolve_never_shadowed in Hl. congruence.
Qed.

Lemma shadowed_fields_are_never_assigned_witness :
  let src := holding ["Inactive(file): 7 kB"; "WritebackTmp: 8 kB"; "Inactive: 9 kB"] in
  shadowedField Field.InactiveFile = true /\
  get Field.InactiveFile (recv (snd (FormatMemInfo Trim_spec src "/proc/meminfo" fresh))) =
  get Field.InactiveFile (recv fresh).
Proof.
  split; [reflexivity|].
  apply (shadowed_fields_are_never_assigned
           Trim_spec
           (holding ["Inactive(file): 7 kB"; "WritebackTmp: 8 kB"; "Inactive: 9 kB"])
           "/proc/meminfo" fresh Field.InactiveFile).
  reflexivity.
Defined.

(** X6.  [FormatMemInfo] never clears a field: a field of the receiver to
    which no line of the file resolves keeps the value it had before the
    call, whether the read fails, the call returns or it panics.  A
    receiver that is used again keeps its old values for the keys that the
    new file omits. *)
Theorem unmentioned_fields_keep_their_value
        (Trim : string -> string)
        (ReadFileByLine : string -> list string * option error)
        (filePath : string) (st : Store) (f : Field.t) :
  (forall l, In l (fst (ReadFileByLine filePath)) -> resolve l <> Some f) ->
  get f (recv (snd (FormatMemInfo Trim ReadFileByLine filePath st))) =
  get f (recv st).
Proof.
  intros Hf. unfold FormatMemInfo.
  destruct (ReadFileByLine filePath) as [data [e|]]; [reflexivity|].
  apply forRange_frame, Hf.
Qed.

Lemma unmentioned_fields_keep_their_value_witness :
  let st := mkStore (set Field.Slab "30000 kB" zero) [] in
  let src := holding ["MemTotal: 1 kB"; "Dirty"; "MemFree: 2 kB"] in
  get Field.Slab (recv (snd (FormatMemInfo Trim_spec src "/proc/meminfo" st))) =
  get Field.Slab (recv st).
Proof.
  apply (unmentioned_fields_keep_their_value
           Trim_spec (holding ["MemTotal: 1 kB"; "Dirty"; "MemFree: 2 kB"])
           "/proc/meminfo"
           (mkStore (set Field.Slab "30000 kB" zero) []) Field.Slab).
  simpl. intros l [<-|[<-|[<-|[]]]]; vm_compute; discriminate.
Defined.

(** X7.  The result of an extraction over a readable file whose lines are
    all tokenizable: the call returns, nothing is logged, and every field
    holds the trimmed value token of the last line that resolves to it,
    or, when no line does, the value it had before the call. *)
Theorem extraction_result
        (Trim : string -> string)
        (ReadFileByLine : string -> list string * option error)
        (filePath : string) (lines : list string) (st : Store) :
  ReadFileByLine filePath = (lines, None) ->
  Forall tokenizable lines ->
  exists st',
    FormatMemInfo Trim ReadFileByLine filePath st = (Return tt, st') /\
    logged st' = logged st /\
    forall f, get f (recv st') =
              match lastFor f lines with
              | Some l => Trim (valueToken l)
              | None => get f (recv st)
              end.
Proof.
  intros Hread Hall. unfold FormatMemInfo. rewrite Hread.
  pose proof (forRange_returns Trim lines st Hall) as Hret.
  pose proof (forRange_logged Trim lines st) as Hlog.
  pose proof (fun f => forRange_final Trim lines st f Hall) as Hfin.
  destruct (forRange lines (formatMemInfo Trim) st) as [o st'].
  simpl in *. subst o. exists st'. auto.
Qed.

Lemma extraction_result_witness :
  let lines := ["MemTotal: 1 kB"; "# comment"; "MemTotalPeak: 2 kB"; "Slab:  3 kB"] in
  exists st',
    FormatMemInfo Trim_spec (holding lines) "/proc/meminfo" fresh = (Return tt, st') /\
    logged st' = logged fresh /\
    forall f, get f (recv st') =
              match lastFor f lines with
              | Some l => Trim_spec (valueToken l)
              | None => get f (recv fresh)
              end.
Proof.
  apply (extraction_result
           Trim_spec
           (holding ["MemTotal: 1 kB"; "# comment"; "MemTotalPeak: 2 kB"; "Slab:  3 kB"])
           "/proc/meminfo"
           ["MemTotal: 1 kB"; "# comment"; "MemTotalPeak: 2 kB"; "Slab:  3 kB"]
           fresh).
  - reflexivity.
  - repeat (constructor; [first [left; reflexivity | right; reflexivity]|]).
    constructor.
Defined.

(** X8.  The order of the lines does not matter when no two of them
    resolve to the same field: two readable files whose tokenizable lines
    are arrangements of each other give the same outcome and the same
    store. *)
Theorem line_order_is_irrelevant
        (Trim : string -> string)
        (ReadFileByLine : string -> list string * option error)
        (path1 path2 : string) (lines1 lines2 : list string) (st : Store) :
  ReadFileByLine path1 = (lines1, None) ->
  ReadFileByLine path2 = (lines2, None) ->
  Permutation lines1 lines2 ->
  Forall tokenizable lines1 ->
  NoDup (resolved lines1) ->
  FormatMemInfo Trim ReadFileByLine path1 st =
  FormatMemInfo Trim ReadFileByLine path2 st.
Proof.
  intros H1 H2 Hp Hall Hnd. unfold FormatMemInfo. rewrite H1, H2.
  now apply forRange_Permutation.
Qed.

Lemma line_order_is_irrelevant_witness :
  let src := fun path : string =>
    if String.eqb path "/tmp/a"
    then (["MemTotal: 1 kB"; "future: x"; "Slab: 3 kB"], None)
    else (["Slab: 3 kB"; "MemTotal: 1 kB"; "future: x"], @None error) in
  FormatMemInfo Trim_spec src "/tmp/a" fresh =
  FormatMemInfo Trim_spec src "/tmp/b" fresh.
Proof.
  apply (line_order_is_irrelevant
           Trim_spec _ "/tmp/a" "/tmp/b"
           ["MemTotal: 1 kB"; "future: x"; "Slab: 3 kB"]
           ["Slab: 3 kB"; "MemTotal: 1 kB"; "future: x"]).
  - reflexivity.
  - reflexivity.
  - apply Permutation_sym.
    exact (Permutation_cons_append ["MemTotal: 1 kB"; "future: x"] "Slab: 3 kB").
  - repeat (constructor; [first [left; reflexivity | right; reflexivity]|]).
    constructor.
  - vm_compute. repeat constructor; simpl; intuition discriminate.
Defined.

(** X9.  Extracting the same readable file a second time into the same
    receiver changes nothing: two calls in a row end as one call does, in
    outcome and in store. *)
Theorem extraction_twice
        (Trim : string -> string)
        (ReadFileByLine : string -> list string * option error)
        (filePath : string) (st : Store) :
  snd (ReadFileByLine filePath) = None ->
  (FormatMemInfo Trim ReadFileByLine filePath ;;;
   FormatMemInfo Trim ReadFileByLine filePath) st =
  FormatMemInfo Trim ReadFileByLine filePath st.
Proof.
  unfold FormatMemInfo.
  destruct (ReadFileByLine filePath) as [data [e|]]; [discriminate|].
  intros _. unfold bind.
  destruct (forRange data (formatMemInfo Trim) st) as [[[]|e] st1] eqn:E;
    [|reflexivity].
  assert (Hall : Forall tokenizable data).
  { apply (forRange_returns_inv Trim data st). now rewrite E. }
  pose proof (forRange_returns Trim data st1 Hall) as Hret.
  pose proof (forRange_logged Trim data st1) as Hlog.
  pose proof (fun f => forRange_final Trim data st1 f Hall) as Hfin.
  pose proof (fun f => forRange_final Trim data st f Hall) as Hfin0.
  rewrite E in Hfin0. simpl in Hfin0.
  destruct (forRange data (formatMemInfo Trim) st1) as [o st2].
  simpl in *. subst o. f_equal.
  apply Store_ext; [|exact Hlog].
  intros f. rewrite Hfin, (Hfin0 f).
  now destruct (lastFor f data).
Qed.

Lemma extraction_twice_witness :
  let src := holding ["MemTotal: 1 kB"; "MemTotal: 2 kB"; "Slab: 3 kB"] in
  (FormatMemInfo Trim_spec src "/proc/meminfo" ;;;
   FormatMemInfo Trim_spec src "/proc/meminfo") fresh =
  FormatMemInfo Trim_spec src "/proc/meminfo" fresh.
Proof.
  apply (extraction_twice
           Trim_spec (holding ["MemTotal: 1 kB"; "MemTotal: 2 kB"; "Slab: 3 kB"])
           "/proc/meminfo" fresh).
  reflexivity.
Defined.

(** X10.  [FormatMemInfo] panics exactly when the file can be read and has
    a line that is not tokenizable, that is, a line that begins with a key
    of the chain and has no delimiter; in every other case it returns. *)
Theorem extraction_panics_iff
        (Trim : string -> string)
        (ReadFileByLine : string -> list string * option error)
        (filePath : string) (st : Store) :
  surfacesFailure (fst (FormatMemInfo Trim ReadFileByLine filePath st)) <->
  snd (ReadFileByLine filePath) = None /\
  Exists (fun l => ~ tokenizable l) (fst (ReadFileByLine filePath)).
Proof.
  unfold FormatMemInfo, surfacesFailure.
  destruct (ReadFileByLine filePath) as [data [e|]]; simpl.
  - split; [intros [e' H]; discriminate | intros [H _]; discriminate].
  - destruct (first_bad_line data) as [Hall|(pre & bad & post & -> & Hpre & Hbad)].
    + rewrite (forRange_returns Trim data st Hall). split.
      * intros [e H]. discriminate.
      * intros [_ Hex]. apply Exists_exists in Hex as (l & Hin & Hl).
        exfalso. apply Hl. rewrite Forall_forall in Hall. now apply Hall.
    + rewrite (forRange_stops Trim pre post bad st Hpre Hbad). simpl. split.
      * intros _. split; [reflexivity|].
        apply Exists_exists. exists bad. split; [|exact Hbad].
        apply in_or_app. right. now left.
      * intros _. now exists (IndexOutOfRange 1 1).
Qed.

(** X11.  When the extraction panics it stops at the first line that is
    not tokenizable: the panic is the index error of [[1]] on a slice of
    length one, the lines after that line are never processed, and the
    receiver holds what an extraction of the lines before it gives. *)
Theorem extraction_stops_at_first_bad_line
        (Trim : string -> string)
        (ReadFileByLine : string -> list string * option error)
        (whole upTo : string)
        (pre post : list string) (bad : string) (st : Store) :
  ReadFileByLine whole = (pre ++ bad :: post, None) ->
  ReadFileByLine upTo = (pre, None) ->
  Forall tokenizable pre ->
  ~ tokenizable bad ->
  FormatMemInfo Trim ReadFileByLine whole st =
  (Panic (IndexOutOfRange 1 1),
   snd (FormatMemInfo Trim ReadFileByLine upTo st)).
Proof.
  intros H1 H2 Hpre Hbad. unfold FormatMemInfo. rewrite H1, H2.
  now apply forRange_stops.
Qed.

Lemma extraction_stops_at_first_bad_line_witness :
  let src := fun path : string =>
    if String.eqb path "/tmp/whole"
    then (["MemFree: 1 kB"; "MemTotal"; "Slab: 3 kB"], None)
    else (["MemFree: 1 kB"], @None error) in
  FormatMemInfo Trim_spec src "/tmp/whole" fresh =
  (Panic (IndexOutOfRange 1 1),
   snd (FormatMemInfo Trim_spec src "/tmp/upto" fresh)).
Proof.
  apply (extraction_stops_at_first_bad_line
           Trim_spec _ "/tmp/whole" "/tmp/upto"
           ["MemFree: 1 kB"] ["Slab: 3 kB"] "MemTotal" fresh).
  - reflexivity.
  - reflexivity.
  - constructor; [left; reflexivity | constructor].
  - intros [H|H]; vm_compute in H; discriminate.
Defined.

(** X12.  On a file that can be read [FormatMemInfo] logs nothing,
    whatever the lines are and however the call ends: the only record it
    ever writes is the one for a failed read. *)
Theorem readable_file_logs_nothing
        (Trim : string -> string)
        (ReadFileByLine : string -> list string * option error)
        (filePath : string) (st : Store) :
  snd (ReadFileByLine filePath) = None ->
  logged (snd (FormatMemInfo Trim ReadFileByLine filePath st)) = logged st.
Proof.
  unfold FormatMemInfo.
  destruct (ReadFileByLine filePath) as [data [e|]]; [discriminate|].
  intros _. apply forRange_logged.
Qed.

Lemma readable_file_logs_nothing_witness :
  logged (snd (FormatMemInfo Trim_spec (holding ["MemFree: 1 kB"; "MemTotal"])
                             "/proc/meminfo" fresh)) = logged fresh.
Proof.
  apply (readable_file_logs_nothing
           Trim_spec (holding ["MemFree: 1 kB"; "MemTotal"]) "/proc/meminfo" fresh).
  reflexivity.
Defined.

(** X13.  The receiver accumulates: extracting two readable files one
    after the other into the same receiver ends as extracting one file
    that holds the lines of the first followed by the lines of the
    second. *)
Theorem extraction_of_concatenation
        (Trim : string -> string)
        (ReadFileByLine : string -> list string * option error)
        (first second both : string)
        (lines1 lines2 : list string) (st : Store) :
  ReadFileByLine first = (lines1, None) ->
  ReadFileByLine second = (lines2, None) ->
  ReadFileByLine both = (lines1 ++ lines2, None) ->
  FormatMemInfo Trim ReadFileByLine both st =
  (FormatMemInfo Trim ReadFileByLine first ;;;
   FormatMemInfo Trim ReadFileByLine second) st.
Proof.
  intros H1 H2 H12. unfold FormatMemInfo, bind.
  rewrite H1, H2, H12, forRange_app.
  now destruct (forRange lines1 (formatMemInfo Trim) st) as [[[]|e] st1].
Qed.

Lemma extraction_of_concatenation_witness :
  let src := fun path : string =>
    if String.eqb path "/tmp/1" then (["MemTotal: 1 kB"; "Slab: 2 kB"], None)
    else if String.eqb path "/tmp/2" then (["Slab: 3 kB"], None)
    else (["MemTotal: 1 kB"; "Slab: 2 kB"; "Slab: 3 kB"], @None error) in
  FormatMemInfo Trim_spec src "/tmp/12" fresh =
  (FormatMemInfo Trim_spec src "/tmp/1" ;;;
   FormatMemInfo Trim_spec src "/tmp/2") fresh.
Proof.
  apply (extraction_of_concatenation
           Trim_spec _ "/tmp/1" "/tmp/2" "/tmp/12"
           ["MemTotal: 1 kB"; "Slab: 2 kB"] ["Slab: 3 kB"] fresh);
    reflexivity.
Defined.
